(** * TourSafe: the safety-score service

    A shallow embedding of [ml/app.py] (the Flask service) and of
    [models/safety_score.py] (the offline training script), and the
    properties of the scoring and anomaly contract proved about them.

    Scores are binary64 floats, as numpy's [float64] is; Python values
    coming from JSON are a small inductive type; exceptions are values of
    an error monad; the file system and the random generator are threaded
    explicitly through module initialisation.  numpy, scikit-learn and
    joblib are not part of the repository: what the code needs of them is
    an interface (the class [Toolkit] below), and every theorem holds for
    all its implementations. *)

From Stdlib Require Import ZArith List Ascii String Floats Lia Bool.
From stdpp Require Import base option gmap strings.

Set Warnings "-inexact-float,-register-all".
Open Scope string_scope.
Open Scope Z_scope.

(** ** Python values and exceptions *)

(** The values [request.json] can hold. A JSON object is a [dict]; its
    items are listed with distinct keys. *)
Inductive pyval :=
| VNone
| VBool (b : bool)
| VInt (z : Z)
| VFloat (f : float)
| VStr (s : string)
| VList (l : list pyval)
| VDict (d : list (string * pyval)).

(** The exception classes the two files can meet (all under [Exception]). *)
Inductive exc_class :=
| KeyError
| TypeError
| ValueError
| IndexError
| UnboundLocalError
| FileNotFoundError
| FileExistsError
| IsADirectoryError
| NotADirectoryError
| HTTPException
| OtherError (name : string).

(** An exception: its class and the text [str(e)] gives. *)
Record exn := Exc { exc_kind : exc_class; exc_str : string }.

Definition str (e : exn) : string := exc_str e.

Inductive outcome (A : Type) :=
| Ok (a : A)
| Raise (e : exn).
Arguments Ok {A} a.
Arguments Raise {A} e.

#[global] Instance outcome_ret : MRet outcome := fun A a => Ok a.
#[global] Instance outcome_bind : MBind outcome := fun A B f m =>
  match m with
  | Ok a => f a
  | Raise e => Raise e
  end.

Definition raises {A} (m : outcome A) : Prop := exists e, m = Raise e.

(** [d[key]] on the items of a dict. *)
Fixpoint dict_get (d : list (string * pyval)) (key : string) : option pyval :=
  match d with
  | [] => None
  | (k, v) :: rest => if String.eqb k key then Some v else dict_get rest key
  end.

Definition not_subscriptable (ty : string) : exn :=
  Exc TypeError ("'" ++ ty ++ "' object is not subscriptable").

(** [data[key]] for a string key: a dict looks the key up and raises
    [KeyError(key)], whose [str] is the key's [repr]; any other JSON value
    raises [TypeError]. *)
Definition getitem (data : pyval) (key : string) : outcome pyval :=
  match data with
  | VDict d =>
      match dict_get d key with
      | Some v => Ok v
      | None => Raise (Exc KeyError ("'" ++ key ++ "'"))
      end
  | VList _ => Raise (Exc TypeError "list indices must be integers or slices, not str")
  | VStr _ => Raise (Exc TypeError "string indices must be integers, not 'str'")
  | VNone => Raise (not_subscriptable "NoneType")
  | VBool _ => Raise (not_subscriptable "bool")
  | VInt _ => Raise (not_subscriptable "int")
  | VFloat _ => Raise (not_subscriptable "float")
  end.

Definition type_name (v : pyval) : string :=
  match v with
  | VNone => "NoneType"
  | VBool _ => "bool"
  | VInt _ => "int"
  | VFloat _ => "float"
  | VStr _ => "str"
  | VList _ => "list"
  | VDict _ => "dict"
  end.

(** [v > 0.8]. A float is compared as a float (false on NaN); an int or a
    bool is compared by value, so it exceeds 0.8 exactly when it is at
    least 1; any other value raises [TypeError]. *)
Definition gt_0_8 (v : pyval) : outcome bool :=
  match v with
  | VFloat f => Ok (PrimFloat.ltb 0.8 f)
  | VInt z => Ok (1 <=? z)
  | VBool b => Ok b
  | _ => Raise (Exc TypeError
           ("'>' not supported between instances of '" ++ type_name v ++ "' and 'float'"))
  end.

(** [a[0]] on a one-dimensional array. *)
Definition first {A} (a : list A) : outcome A :=
  match a with
  | x :: _ => Ok x
  | [] => Raise (Exc IndexError "index 0 is out of bounds for axis 0 with size 0")
  end.

(** What a handler puts in the dict it gives to [jsonify]: a builtin
    value, or a [numpy.bool_], which is what [==] gives on a numpy
    scalar. *)
Inductive pyobj :=
| Builtin (v : pyval)
| NumpyBool (b : bool).

(** [jsonify(d)]: Flask's JSON provider writes the builtin values and
    raises [TypeError] on an object it does not know, a [numpy.bool_]
    among them. *)
Fixpoint jsonify (d : list (string * pyobj)) : outcome (list (string * pyval)) :=
  match d with
  | [] => Ok []
  | (k, Builtin v) :: rest => rest' ← jsonify rest; Ok ((k, v) :: rest')
  | (k, NumpyBool _) :: _ =>
      Raise (Exc TypeError "Object of type bool_ is not JSON serializable")
  end.

(** ** Float comparisons *)

(** [x >= y] on floats. *)
Definition ge (x y : float) : bool := PrimFloat.leb y x.
(** [x < y] on floats. *)
Definition lt (x y : float) : bool := PrimFloat.ltb x y.

(** ** What the code uses of numpy, scikit-learn and joblib

    The arrays, the fitted models and the random generator are the
    libraries' own. A model's [predict] is a function of the model and of
    the array it is given; drawing random numbers, splitting and fitting
    advance the generator. *)
Class Toolkit := {
  (** numpy arrays and [np.array] on a nested list *)
  ndarray : Type;
  np_array : list (list pyval) -> outcome ndarray;
  (** fitted models; [predict] as the regressor answers it (scores) and
      as the anomaly detector answers it (labels) *)
  estimator : Type;
  predict : estimator -> ndarray -> outcome (list float);
  predict_labels : estimator -> ndarray -> outcome (list Z);
  (** numpy's global random state, [np.random.rand(n)] and
      [np.random.randint(low, high, n)] *)
  rng : Type;
  rand : nat -> rng -> list float * rng;
  randint : Z -> Z -> nat -> rng -> list Z * rng;
  (** [train_test_split(X, y, test_size=...)]:
      (X_train, X_test, y_train, y_test) *)
  train_test_split :
    list (list float) -> list Z -> float -> rng ->
    (list (list float) * list (list float) * list Z * list Z) * rng;
  (** [RandomForestRegressor().fit(X, y)] and [IsolationForest().fit(X)] *)
  RandomForestRegressor_fit : list (list float) -> list Z -> rng -> estimator * rng;
  IsolationForest_fit : list (list float) -> rng -> estimator * rng
}.

(** ** The file system and the process state *)

(** The directory part of a path: what precedes its last slash. *)
Fixpoint dirname_aux (path : string) : option string :=
  match path with
  | EmptyString => None
  | String c rest =>
      match dirname_aux rest with
      | Some d => Some (String c d)
      | None => if Ascii.eqb c "/"%char then Some EmptyString else None
      end
  end.

Definition dirname (path : string) : string := default "" (dirname_aux path).

Section World.
Context `{Toolkit}.

(** What a path names: a directory, a pickled model, or a file that is
    there but does not load ([joblib.load] raises [e] on it: a truncated
    or foreign pickle, a permission error). *)
Inductive entry :=
| Dir
| Pickle (m : estimator)
| Unreadable (e : exn).

Record world := World { fs : gmap string entry; rng_state : rng }.

Definition no_such_file (path : string) : exn :=
  Exc FileNotFoundError ("[Errno 2] No such file or directory: '" ++ path ++ "'").

Definition not_a_directory (path : string) : exn :=
  Exc NotADirectoryError ("[Errno 20] Not a directory: '" ++ path ++ "'").

(** [joblib.load(path)]. A path that names nothing cannot be opened: the
    error is [NotADirectoryError] when its directory is a file, and
    [FileNotFoundError] otherwise. *)
Definition load (path : string) (w : world) : outcome estimator :=
  match fs w !! path with
  | Some (Pickle m) => Ok m
  | Some (Unreadable e) => Raise e
  | Some Dir => Raise (Exc IsADirectoryError ("[Errno 21] Is a directory: '" ++ path ++ "'"))
  | None =>
      match fs w !! dirname path with
      | Some (Pickle _) | Some (Unreadable _) => Raise (not_a_directory path)
      | Some Dir | None => Raise (no_such_file path)
      end
  end.

(** [os.makedirs(path, exist_ok=True)] for a path of one component *)
Definition makedirs (path : string) (w : world) : outcome world :=
  match fs w !! path with
  | None => Ok (World (<[path := Dir]> (fs w)) (rng_state w))
  | Some Dir => Ok w
  | Some _ => Raise (Exc FileExistsError ("[Errno 17] File exists: '" ++ path ++ "'"))
  end.

(** [joblib.dump(m, path)]: the directory of [path] must be there, and
    [path] must not name a directory. *)
Definition dump (m : estimator) (path : string) (w : world) : outcome world :=
  match fs w !! dirname path with
  | Some Dir =>
      match fs w !! path with
      | Some Dir => Raise (Exc IsADirectoryError ("[Errno 21] Is a directory: '" ++ path ++ "'"))
      | _ => Ok (World (<[path := Pickle m]> (fs w)) (rng_state w))
      end
  | Some _ => Raise (not_a_directory path)
  | None => Raise (no_such_file path)
  end.

(** The synthetic data frame: one column per key, every column one draw
    of 100 values, in the order the dict literal evaluates them. *)
Record DataFrame := Frame {
  col_risk : list float;
  col_speed : list float;
  col_weather : list float;
  col_crowd : list float;
  col_score : list Z
}.

Definition simulated_data (g : rng) : DataFrame * rng :=
  let '(risk, g) := rand 100 g in
  let '(speed, g) := rand 100 g in
  let '(weather, g) := rand 100 g in
  let '(crowd, g) := rand 100 g in
  let '(score, g) := randint 0 100 100 g in
  (Frame risk speed weather crowd score, g).

Fixpoint rows (risk speed weather crowd : list float) : list (list float) :=
  match risk, speed, weather, crowd with
  | r :: risk, s :: speed, w :: weather, c :: crowd =>
      [r; s; w; c] :: rows risk speed weather crowd
  | _, _, _, _ => []
  end.

(** [data[['risk', 'speed', 'weather', 'crowd']]] *)
Definition X_of (data : DataFrame) : list (list float) :=
  rows (col_risk data) (col_speed data) (col_weather data) (col_crowd data).

(** [data['score']] *)
Definition y_of (data : DataFrame) : list Z := col_score data.

(** A JSON response: what [jsonify] wrote, and the status. *)
Record response := Response { body : list (string * pyval); status : Z }.

(** [np.array([[data['risk'], data['speed'], data['weather'],
    data['crowd']]])] (app.py 41 and 53): the four items are read from
    left to right and handed to numpy as they are. *)
Definition feature_row (data : pyval) : outcome (list pyval) :=
  risk ← getitem data "risk";
  speed ← getitem data "speed";
  weather ← getitem data "weather";
  crowd ← getitem data "crowd";
  Ok [risk; speed; weather; crowd].

Definition features_of (data : pyval) : outcome ndarray :=
  row ← feature_row data;
  np_array [row].

End World.

Definition regressor_path : string := "models/safety_regressor.pkl".
Definition detector_path : string := "models/anomaly_detector.pkl".

(** ** ml/app.py *)

Module App.
Section App.
Context `{Toolkit}.

(** Lines 12-35: the models are loaded, or trained and saved when a
    file is not found. Any other exception leaves the module
    unimported. *)
Definition load_models (w : world) : outcome (estimator * estimator) :=
  regressor ← load regressor_path w;
  anomaly_detector ← load detector_path w;
  Ok (regressor, anomaly_detector).

Definition train_models (w : world) : outcome (world * (estimator * estimator)) :=
  let '(data, g) := simulated_data (rng_state w) in
  let X := X_of data in
  let y := y_of data in
  let '((X_train, _, y_train, _), g) := train_test_split X y 0.2 g in
  let '(regressor, g) := RandomForestRegressor_fit X_train y_train g in
  let '(anomaly_detector, g) := IsolationForest_fit X_train g in
  w ← makedirs "models" (World (fs w) g);
  w ← dump regressor regressor_path w;
  w ← dump anomaly_detector detector_path w;
  Ok (w, (regressor, anomaly_detector)).

Definition module_init (w : world) : outcome (world * (estimator * estimator)) :=
  match load_models w with
  | Ok models => Ok (w, models)
  | Raise e =>
      match exc_kind e with
      | FileNotFoundError => train_models w
      | _ => Raise e
      end
  end.

(** Lines 43-44. *)
Definition color (score : float) : string :=
  if ge score 80 then "green" else if ge score 50 then "yellow" else "red".

Definition tip (score : float) : string :=
  if ge score 80 then "Adventure Ready!"
  else if ge score 50 then "Proceed with Caution"
  else "Reroute Recommended".

(** Lines 40-45: the body of the [try]. [request_json] is what
    evaluating [request.json] gives, a value or an exception;
    [float(score)] is a builtin float. *)
Definition predict_safety_try (regressor : estimator)
    (request_json : outcome pyval) : outcome response :=
  data ← request_json;
  features ← features_of data;
  predictions ← predict regressor features;
  score ← first predictions;
  body ← jsonify [("score", Builtin (VFloat score)); ("color", Builtin (VStr (color score)));
                  ("tip", Builtin (VStr (tip score)))];
  Ok (Response body 200).

(** The payload of line 47. *)
Definition fail_open (message : string) : list (string * pyobj) :=
  [("error", Builtin (VStr message)); ("score", Builtin (VInt 85));
   ("color", Builtin (VStr "green")); ("tip", Builtin (VStr "Adventure Ready!"))].

(** Lines 38-47. *)
Definition predict_safety (regressor : estimator)
    (request_json : outcome pyval) : outcome response :=
  match predict_safety_try regressor request_json with
  | Ok r => Ok r
  | Raise e => body ← jsonify (fail_open (str e)); Ok (Response body 500)
  end.

(** [anomaly == -1] (line 55), on the numpy integer the detector
    predicts: the truth value of the [numpy.bool_] it gives. *)
Definition is_anomaly (anomaly : Z) : bool := anomaly =? -1.

(** Lines 52-55: the body of the [try]. *)
Definition detect_anomaly_try (anomaly_detector : estimator)
    (request_json : outcome pyval) : outcome response :=
  data ← request_json;
  features ← features_of data;
  labels ← predict_labels anomaly_detector features;
  anomaly ← first labels;
  body ← jsonify [("anomaly", NumpyBool (is_anomaly anomaly))];
  Ok (Response body 200).

(** The local [data] as the [except] clause finds it: unbound when
    [request.json] itself raised. *)
Definition local_data (request_json : outcome pyval) : outcome pyval :=
  match request_json with
  | Ok data => Ok data
  | Raise _ =>
      Raise (Exc UnboundLocalError
        "cannot access local variable 'data' where it is not associated with a value")
  end.

(** [data['risk'] > 0.8] in the [except] clause (line 57). *)
Definition risk_fallback (request_json : outcome pyval) : outcome bool :=
  data ← local_data request_json;
  risk ← getitem data "risk";
  gt_0_8 risk.

(** Lines 50-57. An exception raised inside the [except] clause leaves
    the handler. *)
Definition detect_anomaly (anomaly_detector : estimator)
    (request_json : outcome pyval) : outcome response :=
  match detect_anomaly_try anomaly_detector request_json with
  | Ok r => Ok r
  | Raise e =>
      anomaly ← risk_fallback request_json;
      body ← jsonify [("error", Builtin (VStr (str e))); ("anomaly", Builtin (VBool anomaly))];
      Ok (Response body 500)
  end.

(** The service: the module is imported, then every request is answered
    by the handler of its route with the two module globals. *)
Inductive route := predict_safety_route | detect_anomaly_route.

Definition handle (regressor anomaly_detector : estimator)
    (request : route * outcome pyval) : outcome response :=
  match fst request with
  | predict_safety_route => predict_safety regressor (snd request)
  | detect_anomaly_route => detect_anomaly anomaly_detector (snd request)
  end.

Definition serve (w : world) (requests : list (route * outcome pyval))
    : outcome (list (outcome response)) :=
  '(_, (regressor, anomaly_detector)) ← module_init w;
  Ok (map (handle regressor anomaly_detector) requests).

End App.
End App.

(** ** models/safety_score.py *)

Module SafetyScore.
Section SafetyScore.
Context `{Toolkit}.

(** Lines 9-29: the script always trains and saves. *)
Definition module_init (w : world) : outcome (world * (estimator * estimator)) :=
  let '(data, g) := simulated_data (rng_state w) in
  let X := X_of data in
  let y := y_of data in
  let '((X_train, X_test, y_train, y_test), g) := train_test_split X y 0.2 g in
  let '(regressor, g) := RandomForestRegressor_fit X_train y_train g in
  let '(anomaly_detector, g) := IsolationForest_fit X_train g in
  w ← makedirs "models" (World (fs w) g);
  w ← dump regressor regressor_path w;
  w ← dump anomaly_detector detector_path w;
  Ok (w, (regressor, anomaly_detector)).

(** Lines 34-35. *)
Definition color (score : float) : string :=
  if ge score 80 then "green" else if ge score 50 then "yellow" else "red".

Definition tip (score : float) : string :=
  if ge score 80 then "Adventure Ready!"
  else if ge score 50 then "Proceed with Caution"
  else "Reroute Recommended".

(** Lines 31-36: the regressor is read from disk at every call. *)
Definition predict_safety (features : ndarray) (w : world)
    : outcome (list (string * pyobj)) :=
  regressor ← load regressor_path w;
  predictions ← predict regressor features;
  score ← first predictions;
  Ok [("score", Builtin (VFloat score)); ("color", Builtin (VStr (color score)));
      ("tip", Builtin (VStr (tip score)))].

(** [anomaly == -1] (line 41). *)
Definition is_anomaly (anomaly : Z) : bool := anomaly =? -1.

(** Lines 38-41. *)
Definition detect_anomaly (features : ndarray) (w : world)
    : outcome (list (string * pyobj)) :=
  anomaly_detector ← load detector_path w;
  labels ← predict_labels anomaly_detector features;
  anomaly ← first labels;
  Ok [("anomaly", NumpyBool (is_anomaly anomaly))].

End SafetyScore.
End SafetyScore.

(** ** What the libraries promise

    [np.random.rand(n)] gives [n] floats in [0, 1),
    [np.random.randint(low, high, n)] gives [n] integers in [low, high)
    when [low < high],
    and [train_test_split] with [test_size=0.2] keeps 80 of 100 samples
    for training, features and targets alike, all taken from the data. *)
Record toolkit_contract `{Toolkit} : Prop := {
  rand_length : forall n g, length (fst (rand n g)) = n;
  rand_range : forall n g x,
    In x (fst (rand n g)) -> ge x 0 = true /\ lt x 1 = true;
  randint_length : forall low high n g, length (fst (randint low high n g)) = n;
  randint_range : forall low high n g z,
    low < high -> In z (fst (randint low high n g)) -> low <= z < high;
  split_sizes : forall X y g,
    length X = 100%nat -> length y = 100%nat ->
    let '(X_train, _, y_train, _) := fst (train_test_split X y 0.2 g) in
    length X_train = 80%nat /\ length y_train = 80%nat /\
    incl X_train X /\ incl y_train y
}.

(** ** A small toolkit to run the definitions on

    A deterministic stand-in for the libraries: arrays keep the values
    they are built from, a fitted model remembers its training data, the
    regressor scores a numeric row by [100 * (1 - risk)], the detector
    labels a row whose risk exceeds 0.9 as an outlier, and
    [train_test_split] puts the first fifth (rounded up) of the rows in
    the test part. *)
Module Stub.

Inductive model :=
| Forest (X : list (list float)) (y : list Z)
| Isolation (X : list (list float)).

Definition as_float (v : pyval) : outcome float :=
  match v with
  | VFloat f => Ok f
  | VInt z => Ok (PrimFloat.of_uint63 (Uint63.of_Z z))
  | _ => Raise (Exc ValueError "could not convert value to float")
  end.

Definition numeric_row (a : list (list pyval)) : outcome float :=
  match a with
  | [[risk; speed; weather; crowd]] =>
      r ← as_float risk;
      _ ← as_float speed;
      _ ← as_float weather;
      _ ← as_float crowd;
      Ok r
  | _ => Raise (Exc ValueError "Expected a 2D array with 4 features")
  end.

Definition n_test (n : nat) : nat := Nat.div (n + 4) 5.

#[global] Instance toolkit : Toolkit := {|
  ndarray := list (list pyval);
  np_array := fun a => Ok a;
  estimator := model;
  predict := fun _ a => r ← numeric_row a; Ok [PrimFloat.mul 100 (PrimFloat.sub 1 r)];
  predict_labels := fun _ a =>
    r ← numeric_row a; Ok [if PrimFloat.ltb 0.9 r then -1 else 1];
  rng := nat;
  rand := fun n g => (repeat 0.5%float n, S g);
  randint := fun low _ n g => (repeat low n, S g);
  train_test_split := fun X y _ g =>
    let k := n_test (length X) in
    ((skipn k X, firstn k X, skipn k y, firstn k y), S g);
  RandomForestRegressor_fit := fun X y g => (Forest X y, S g);
  IsolationForest_fit := fun X g => (Isolation X, S g)
|}.

(** A request body with the four fields, and one without "weather". *)
Definition full_body (risk : float) : pyval :=
  VDict [("risk", VFloat risk); ("speed", VFloat 0.01); ("weather", VFloat 0.5);
         ("crowd", VFloat 0.5)].

Definition no_weather : pyval :=
  VDict [("risk", VFloat 0.2); ("speed", VFloat 0.3); ("crowd", VFloat 0.4)].

(** A body whose "speed" is not a number, with a risk above 0.8. *)
Definition bad_speed : pyval :=
  VDict [("risk", VFloat 0.9); ("speed", VStr "fast"); ("weather", VFloat 0.5);
         ("crowd", VFloat 0.5)].

(** A body whose "risk" is there but is not a number. *)
Definition bad_risk : pyval :=
  VDict [("risk", VStr "high"); ("speed", VFloat 0.01); ("weather", VFloat 0.5);
         ("crowd", VFloat 0.5)].

(** A fresh machine: no file at all. *)
Definition fresh : world := World ∅ 0%nat.

(** A machine whose regressor file is there but truncated. *)
Definition truncated : exn := Exc (OtherError "EOFError") "Ran out of input".

Definition damaged : world :=
  World (<[regressor_path := Unreadable truncated]> (<["models" := Dir]> ∅)) 0%nat.

End Stub.

(** * Properties *)

(** ** Order facts on binary64 *)

Lemma SFcompare_swap x y c :
  SFcompare x y = Some c -> SFcompare y x = Some (CompOpp c).
Proof.
  destruct x as [sx|sx| |sx mx ex], y as [sy|sy| |sy my ey]; simpl;
    try discriminate; intros [= <-]; try (destruct sx; reflexivity);
    try (destruct sy; reflexivity); try (destruct sx, sy; reflexivity).
  destruct sx, sy; simpl; try reflexivity;
    fold (Pos.compare mx my); fold (Pos.compare my mx);
    rewrite (Z.compare_antisym ex ey), (Pos.compare_antisym mx my);
    destruct (ex ?= ey); simpl; try reflexivity;
    destruct (mx ?= my)%positive; reflexivity.
Qed.

Lemma SFcompare_defined x y :
  x <> S754_nan -> y <> S754_nan -> exists c, SFcompare x y = Some c.
Proof. destruct x, y; simpl; intros; try congruence; eauto. Qed.

Lemma is_nan_Prim2SF s : is_nan s = false <-> Prim2SF s <> S754_nan.
Proof.
  unfold is_nan. rewrite FloatAxioms.eqb_spec. unfold SFeqb.
  destruct (Prim2SF s) as [b|b| |b m e]; simpl.
  - split; [discriminate|reflexivity].
  - split; [discriminate|]. destruct b; reflexivity.
  - split; [discriminate|congruence].
  - split; [discriminate|]. intros _.
    destruct b; rewrite Z.compare_refl, Pos.compare_cont_refl; reflexivity.
Qed.

Lemma lt_not_ge x y : lt x y = true -> ge x y = false.
Proof.
  unfold lt, ge. rewrite ltb_spec, leb_spec. unfold SFltb, SFleb.
  destruct (SFcompare (Prim2SF x) (Prim2SF y)) as [c|] eqn:E; [|discriminate].
  apply SFcompare_swap in E. rewrite E. destruct c; simpl; congruence.
Qed.

Lemma not_ge_lt x y :
  is_nan x = false -> is_nan y = false -> ge x y = false -> lt x y = true.
Proof.
  rewrite !is_nan_Prim2SF. unfold lt, ge. rewrite ltb_spec, leb_spec.
  unfold SFltb, SFleb. intros Hx Hy.
  destruct (SFcompare_defined _ _ Hy Hx) as [c E]. rewrite E.
  apply SFcompare_swap in E. rewrite E. destruct c; simpl; congruence.
Qed.

Lemma ge_not_nan x y : ge x y = true -> is_nan x = false.
Proof.
  unfold ge. rewrite leb_spec, is_nan_Prim2SF. unfold SFleb.
  intros E Hn. rewrite Hn in E. destruct (Prim2SF y); discriminate.
Qed.

(** Below 50 is below 80: the only use of transitivity, at the two
    thresholds. *)
Lemma lt_50_not_ge_80 s : lt s 50 = true -> ge s 80 = false.
Proof.
  unfold lt, ge. rewrite ltb_spec, leb_spec.
  change (Prim2SF 50) with (S754_finite false 7036874417766400 (-47)).
  change (Prim2SF 80) with (S754_finite false 5629499534213120 (-46)).
  unfold SFltb, SFleb.
  destruct (Prim2SF s) as [b|b| |b m e]; cbv beta iota delta [SFcompare].
  - reflexivity.
  - destruct b; [reflexivity|discriminate].
  - discriminate.
  - destruct b; [reflexivity|].
    destruct (Z.compare_spec e (-47)) as [E|E|E]; [ | |discriminate];
      (destruct (Z.compare_spec (-46) e) as [E2|E2|E2]; [lia|lia|reflexivity]).
Qed.

(** ** The classification *)

(** The three cases of lines 43-44, by the two tests they make. *)
Lemma classify_cases score :
  (ge score 80 = true /\ App.color score = "green" /\ App.tip score = "Adventure Ready!") \/
  (ge score 80 = false /\ ge score 50 = true /\
     App.color score = "yellow" /\ App.tip score = "Proceed with Caution") \/
  (ge score 80 = false /\ ge score 50 = false /\
     App.color score = "red" /\ App.tip score = "Reroute Recommended").
Proof.
  unfold App.color, App.tip.
  destruct (ge score 80); [auto|]. destruct (ge score 50); auto 10.
Qed.

(** A score that is not a number fails both tests and is classified red. *)
Lemma classify_nan :
  App.color PrimFloat.nan = "red" /\ App.tip PrimFloat.nan = "Reroute Recommended".
Proof. split; reflexivity. Qed.



(** ** The handlers *)

Ltac unfold_bind := unfold mbind, outcome_bind, mret, outcome_ret in *.

Lemma getitem_missing d key :
  dict_get d key = None -> getitem (VDict d) key = Raise (Exc KeyError ("'" ++ key ++ "'")).
Proof. intros E. simpl. rewrite E. reflexivity. Qed.

(** The row is built exactly when the four items can be read, and is
    then the four values in the order risk, speed, weather, crowd. *)
Lemma feature_row_ok data row :
  feature_row data = Ok row <->
  exists risk speed weather crowd,
    getitem data "risk" = Ok risk /\ getitem data "speed" = Ok speed /\
    getitem data "weather" = Ok weather /\ getitem data "crowd" = Ok crowd /\
    row = [risk; speed; weather; crowd].
Proof.
  unfold feature_row. unfold_bind. split.
  - destruct (getitem data "risk") as [r|]; [|discriminate].
    destruct (getitem data "speed") as [s|]; [|discriminate].
    destruct (getitem data "weather") as [w|]; [|discriminate].
    destruct (getitem data "crowd") as [c|]; [|discriminate].
    intros [= <-]. eauto 10.
  - intros (r & s & w & c & -> & -> & -> & -> & ->). reflexivity.
Qed.

Lemma feature_row_raises data key :
  In key ["risk"; "speed"; "weather"; "crowd"] ->
  raises (getitem data key) -> raises (feature_row data).
Proof.
  unfold feature_row, raises. unfold_bind. intros Hk [e He].
  destruct (getitem data "risk") as [r|e1] eqn:E1; [|eauto].
  destruct (getitem data "speed") as [s|e2] eqn:E2; [|eauto].
  destruct (getitem data "weather") as [w|e3] eqn:E3; [|eauto].
  destruct (getitem data "crowd") as [c|e4] eqn:E4; [|eauto].
  simpl in Hk. destruct Hk as [<-|[<-|[<-|[<-|[]]]]]; congruence.
Qed.

Lemma features_of_raises `{Toolkit} data :
  raises (feature_row data) -> raises (features_of data).
Proof. unfold features_of, raises. unfold_bind. intros [e ->]. eauto. Qed.

(** C2. Whatever [request.json] gives, [predict_safety] does not let an
    exception out: when any stage of its [try] raises [e], it answers
    status 500 with exactly [{error: str(e), score: 85, color: "green",
    tip: "Adventure Ready!"}]. The stages are named one by one, and a body
    without "weather" gets that payload. *)
Theorem predict_safety_fail_open `{Toolkit}
    (regressor : estimator) (request_json : outcome pyval) :
  (exists r, App.predict_safety regressor request_json = Ok r) /\
  (forall e, App.predict_safety_try regressor request_json = Raise e ->
     App.predict_safety regressor request_json =
       Ok (Response [("error", VStr (str e)); ("score", VInt 85);
                     ("color", VStr "green"); ("tip", VStr "Adventure Ready!")] 500)) /\
  (forall e, request_json = Raise e ->
     App.predict_safety_try regressor request_json = Raise e) /\
  (forall data e, request_json = Ok data -> features_of data = Raise e ->
     App.predict_safety_try regressor request_json = Raise e) /\
  (forall data features e, request_json = Ok data -> features_of data = Ok features ->
     predict regressor features = Raise e ->
     App.predict_safety_try regressor request_json = Raise e) /\
  (forall d, request_json = Ok (VDict d) -> dict_get d "weather" = None ->
     exists message,
       App.predict_safety regressor request_json =
         Ok (Response [("error", VStr message); ("score", VInt 85);
                       ("color", VStr "green"); ("tip", VStr "Adventure Ready!")] 500)).
Proof.
  assert (Hcatch : forall e,
    App.predict_safety_try regressor request_json = Raise e ->
    App.predict_safety regressor request_json =
      Ok (Response [("error", VStr (str e)); ("score", VInt 85);
                    ("color", VStr "green"); ("tip", VStr "Adventure Ready!")] 500)).
  { intros e E. unfold App.predict_safety. rewrite E. reflexivity. }
  split; [|split; [exact Hcatch|repeat split]].
  - destruct (App.predict_safety_try regressor request_json) as [r|e] eqn:E.
    + unfold App.predict_safety. rewrite E. eauto.
    + rewrite (Hcatch e eq_refl). eauto.
  - intros e ->. reflexivity.
  - intros data e -> E. unfold App.predict_safety_try. unfold_bind. rewrite E. reflexivity.
  - intros data features e -> E1 E2. unfold App.predict_safety_try. unfold_bind.
    rewrite E1, E2. reflexivity.
  - intros d -> Hw.
    assert (R : raises (features_of (VDict d))).
    { apply features_of_raises, (feature_row_raises _ "weather"); [simpl; auto|].
      eexists. apply getitem_missing, Hw. }
    destruct R as [e R]. exists (str e). apply Hcatch.
    unfold App.predict_safety_try. unfold_bind. rewrite R. reflexivity.
Qed.

(** On the stand-in toolkit, the body without "weather" is answered with
    the KeyError's text. *)
Lemma predict_safety_fail_open_witness :
  App.predict_safety (Stub.Forest [] []) (Ok Stub.no_weather) =
    Ok (Response [("error", VStr "'weather'"); ("score", VInt 85);
                  ("color", VStr "green"); ("tip", VStr "Adventure Ready!")] 500).
Proof.
  exact (proj1 (proj2 (predict_safety_fail_open (Stub.Forest [] []) (Ok Stub.no_weather)))
           (Exc KeyError "'weather'") eq_refl).
Defined.

(** What [data['risk'] > 0.8] gives in the [except] clause: a boolean
    exactly when the body was parsed, has a "risk" item and that item is a
    number. *)
Lemma risk_fallback_ok request_json b :
  App.risk_fallback request_json = Ok b <->
  exists data risk,
    request_json = Ok data /\ getitem data "risk" = Ok risk /\ gt_0_8 risk = Ok b.
Proof.
  unfold App.risk_fallback, App.local_data. unfold_bind. split.
  - destruct request_json as [data|]; [|discriminate].
    destruct (getitem data "risk") as [risk|] eqn:E; [|discriminate]. eauto.
  - intros (data & risk & -> & -> & E). exact E.
Qed.

(** A "risk" that is present but not a number makes the [try] fail, and
    then the [except] clause too: the comparison with 0.8 raises, and no
    fallback payload is returned although the field is available. *)
Lemma risk_present_but_fallback_raises :
  getitem Stub.bad_risk "risk" = Ok (VStr "high") /\
  App.detect_anomaly_try (Stub.Isolation []) (Ok Stub.bad_risk) =
    Raise (Exc ValueError "could not convert value to float") /\
  App.detect_anomaly (Stub.Isolation []) (Ok Stub.bad_risk) =
    Raise (Exc TypeError "'>' not supported between instances of 'str' and 'float'").
Proof. repeat split; reflexivity. Qed.

(** C3, as the code has it. When the [try] of [detect_anomaly] raises
    [e], the handler answers status 500 with [{error: str(e), anomaly:
    risk > 0.8}], the boolean being computed from the raw body's "risk"
    item, when that item is present and is a number; otherwise (the body
    was not parsed, is not an object, has no "risk", or its "risk" is not
    a number) the exception raised in the [except] clause leaves the
    handler and no payload is returned. *)
Theorem detect_anomaly_fallback `{Toolkit}
    (anomaly_detector : estimator) (request_json : outcome pyval) (e : exn)
    (Hfail : App.detect_anomaly_try anomaly_detector request_json = Raise e) :
  (forall data risk b,
     request_json = Ok data -> getitem data "risk" = Ok risk -> gt_0_8 risk = Ok b ->
     App.detect_anomaly anomaly_detector request_json =
       Ok (Response [("error", VStr (str e)); ("anomaly", VBool b)] 500)) /\
  (forall data f, request_json = Ok data -> getitem data "risk" = Ok (VFloat f) ->
     App.detect_anomaly anomaly_detector request_json =
       Ok (Response [("error", VStr (str e)); ("anomaly", VBool (PrimFloat.ltb 0.8 f))] 500)) /\
  (forall d, request_json = Ok (VDict d) -> dict_get d "risk" = None ->
     App.detect_anomaly anomaly_detector request_json = Raise (Exc KeyError "'risk'")) /\
  (forall e0, request_json = Raise e0 ->
     exists e', exc_kind e' = UnboundLocalError /\
       App.detect_anomaly anomaly_detector request_json = Raise e') /\
  (forall data e', request_json = Ok data -> getitem data "risk" = Raise e' ->
     App.detect_anomaly anomaly_detector request_json = Raise e') /\
  (forall data risk e', request_json = Ok data -> getitem data "risk" = Ok risk ->
     gt_0_8 risk = Raise e' ->
     App.detect_anomaly anomaly_detector request_json = Raise e') /\
  ((exists r, App.detect_anomaly anomaly_detector request_json = Ok r) <->
   (exists b, App.risk_fallback request_json = Ok b)).
Proof.
  unfold App.detect_anomaly. rewrite Hfail.
  assert (Hok : forall data risk b,
     request_json = Ok data -> getitem data "risk" = Ok risk -> gt_0_8 risk = Ok b ->
     App.risk_fallback request_json = Ok b).
  { intros * E1 E2 E3. apply risk_fallback_ok. eauto. }
  repeat split.
  - intros * E1 E2 E3. unfold_bind. rewrite (Hok _ _ _ E1 E2 E3). reflexivity.
  - intros * E1 E2. unfold_bind. rewrite (Hok _ _ _ E1 E2 eq_refl). reflexivity.
  - intros d -> E. unfold App.risk_fallback, App.local_data. unfold_bind.
    rewrite (getitem_missing _ _ E). reflexivity.
  - intros e0 ->. eexists. split; [|reflexivity]. reflexivity.
  - intros data e' -> E. unfold App.risk_fallback, App.local_data. unfold_bind.
    rewrite E. reflexivity.
  - intros data risk e' -> E1 E2. unfold App.risk_fallback, App.local_data. unfold_bind.
    rewrite E1, E2. reflexivity.
  - intros [r Hr]. unfold_bind.
    destruct (App.risk_fallback request_json) as [b|]; [eauto|discriminate].
  - intros [b ->]. unfold_bind. eauto.
Qed.

(** On the stand-in toolkit: "speed" is a string the detector rejects,
    "risk" is 0.9, and the fallback answers [anomaly: true]. *)
Lemma detect_anomaly_fallback_witness :
  App.detect_anomaly (Stub.Isolation []) (Ok Stub.bad_speed) =
  Ok (Response [("error", VStr "could not convert value to float");
                ("anomaly", VBool true)] 500).
Proof.
  exact (proj1 (proj2 (detect_anomaly_fallback (Stub.Isolation []) (Ok Stub.bad_speed)
           (Exc ValueError "could not convert value to float") eq_refl))
         _ 0.9%float eq_refl eq_refl).
Defined.

(** The verdict of line 55 and of safety_score.py line 41: true iff the
    predicted label is the outlier label -1. *)
Lemma is_anomaly_spec anomaly :
  (App.is_anomaly anomaly = true <-> anomaly = -1) /\
  (App.is_anomaly anomaly = false <-> anomaly <> -1) /\
  (SafetyScore.is_anomaly anomaly = true <-> anomaly = -1) /\
  (SafetyScore.is_anomaly anomaly = false <-> anomaly <> -1).
Proof.
  unfold App.is_anomaly, SafetyScore.is_anomaly.
  repeat split; try apply Z.eqb_eq; apply Z.eqb_neq.
Qed.

(** The [try] of [detect_anomaly] never completes: either an earlier
    stage raises, or [jsonify] does on the [numpy.bool_]. *)
Lemma detect_anomaly_try_raises `{Toolkit}
    (anomaly_detector : estimator) (request_json : outcome pyval) :
  raises (App.detect_anomaly_try anomaly_detector request_json).
Proof.
  unfold App.detect_anomaly_try, raises. unfold_bind.
  destruct request_json as [data|]; [|eauto].
  destruct (features_of data) as [features|]; [|eauto].
  destruct (predict_labels anomaly_detector features) as [labels|]; [|eauto].
  destruct (first labels); cbn; eauto.
Qed.

(** C4, on the code. The verdict is true iff the predicted label is -1,
    but [/detect-anomaly] never answers [{anomaly: verdict}] with status
    200: the verdict is a [numpy.bool_], [jsonify] raises [TypeError] on
    it inside the [try], and the request is answered by the [except]
    clause (status 500 and [risk > 0.8]) or not at all. *)
Theorem anomaly_verdict_not_serialised `{Toolkit}
    (anomaly_detector : estimator) (data : pyval) (features : ndarray)
    (anomaly : Z) (others : list Z)
    (Hfeatures : features_of data = Ok features)
    (Hlabel : predict_labels anomaly_detector features = Ok (anomaly :: others)) :
  (App.is_anomaly anomaly = true <-> anomaly = -1) /\
  App.detect_anomaly_try anomaly_detector (Ok data) =
    Raise (Exc TypeError "Object of type bool_ is not JSON serializable") /\
  App.detect_anomaly anomaly_detector (Ok data) <>
    Ok (Response [("anomaly", VBool (App.is_anomaly anomaly))] 200) /\
  (forall request_json r,
     App.detect_anomaly anomaly_detector request_json = Ok r -> status r = 500) /\
  (forall w, load detector_path w = Ok anomaly_detector ->
     SafetyScore.detect_anomaly features w =
       Ok [("anomaly", NumpyBool (SafetyScore.is_anomaly anomaly))]).
Proof.
  assert (Htry : App.detect_anomaly_try anomaly_detector (Ok data) =
                 Raise (Exc TypeError "Object of type bool_ is not JSON serializable")).
  { unfold App.detect_anomaly_try. unfold_bind. rewrite Hfeatures, Hlabel. reflexivity. }
  assert (Hstatus : forall request_json r,
            App.detect_anomaly anomaly_detector request_json = Ok r -> status r = 500).
  { intros request_json r. unfold App.detect_anomaly.
    destruct (detect_anomaly_try_raises anomaly_detector request_json) as [e ->].
    unfold_bind. destruct (App.risk_fallback request_json) as [b|]; [|discriminate].
    cbn. intros [= <-]. reflexivity. }
  split; [apply is_anomaly_spec|]. split; [exact Htry|]. split; [|split; [exact Hstatus|]].
  - intros E. apply Hstatus in E. discriminate.
  - intros w Hw. unfold SafetyScore.detect_anomaly. unfold_bind.
    rewrite Hw, Hlabel. reflexivity.
Qed.

(** The body [{risk: 0.99, speed: 0.01, weather: 0.5, crowd: 0.5}], which
    the stand-in detector labels -1, is answered with status 500 and the
    serialisation error. *)
Lemma anomaly_verdict_not_serialised_witness :
  predict_labels (Stub.Isolation []) [[VFloat 0.99; VFloat 0.01; VFloat 0.5; VFloat 0.5]] =
    Ok [-1] /\
  App.detect_anomaly (Stub.Isolation []) (Ok (Stub.full_body 0.99)) =
    Ok (Response [("error", VStr "Object of type bool_ is not JSON serializable");
                  ("anomaly", VBool true)] 500) /\
  App.detect_anomaly_try (Stub.Isolation []) (Ok (Stub.full_body 0.99)) =
    Raise (Exc TypeError "Object of type bool_ is not JSON serializable").
Proof.
  split; [reflexivity|]. split; [reflexivity|].
  exact (proj1 (proj2 (anomaly_verdict_not_serialised (Stub.Isolation [])
                  (Stub.full_body 0.99)
                  [[VFloat 0.99; VFloat 0.01; VFloat 0.5; VFloat 0.5]] (-1) []
                  eq_refl eq_refl))).
Defined.

(** The builder of lines 41 and 53 does not fail on a value that is not
    numeric-coercible: the four items are read and handed over as they
    are. *)
Lemma builder_accepts_non_numeric :
  feature_row Stub.bad_speed =
    Ok [VFloat 0.9; VStr "fast"; VFloat 0.5; VFloat 0.5] /\
  features_of Stub.bad_speed =
    Ok [[VFloat 0.9; VStr "fast"; VFloat 0.5; VFloat 0.5]].
Proof. split; reflexivity. Qed.

(** C8, as the code has it. The builder reads the four items and hands
    them to numpy as one row in the order risk, speed, weather, crowd,
    unchanged: no coercion and no clamping is applied to them. It raises
    whenever the body is not an object or one of the four keys is absent,
    and the row itself fails to be built in these cases only. *)
Theorem feature_vector_builder `{Toolkit} (data : pyval) :
  (forall risk speed weather crowd,
     getitem data "risk" = Ok risk -> getitem data "speed" = Ok speed ->
     getitem data "weather" = Ok weather -> getitem data "crowd" = Ok crowd ->
     feature_row data = Ok [risk; speed; weather; crowd] /\
     features_of data = np_array [[risk; speed; weather; crowd]]) /\
  (forall d key, data = VDict d -> In key ["risk"; "speed"; "weather"; "crowd"] ->
     dict_get d key = None -> raises (features_of data)) /\
  ((forall d, data <> VDict d) -> raises (features_of data)) /\
  (raises (feature_row data) <->
     (forall d, data <> VDict d) \/
     exists d key, data = VDict d /\ In key ["risk"; "speed"; "weather"; "crowd"] /\
                   dict_get d key = None).
Proof.
  assert (Hnot : (forall d, data <> VDict d) -> raises (feature_row data)).
  { intros Hd. apply (feature_row_raises _ "risk"); [simpl; auto|].
    destruct data; simpl; try (eexists; reflexivity). destruct (Hd d eq_refl). }
  assert (Hkey : forall d key, data = VDict d ->
            In key ["risk"; "speed"; "weather"; "crowd"] ->
            dict_get d key = None -> raises (feature_row data)).
  { intros d key -> Hk E. apply (feature_row_raises _ key Hk).
    eexists. apply getitem_missing, E. }
  split; [|split; [|split; [|split]]].
  - intros risk speed weather crowd E1 E2 E3 E4. split.
    + apply feature_row_ok. eauto 10.
    + unfold features_of, feature_row. unfold_bind. rewrite E1, E2, E3, E4. reflexivity.
  - intros d key Hd Hk E. apply features_of_raises. eauto.
  - intros Hd. apply features_of_raises. auto.
  - intros [e He]. destruct data as [| | | | | |d];
      try (left; intros d0; discriminate).
    right. exists d. unfold feature_row in He. unfold_bind. simpl in He.
    destruct (dict_get d "risk") eqn:E1; [|exists "risk"; split; [reflexivity|split; [simpl; tauto|assumption]]].
    destruct (dict_get d "speed") eqn:E2; [|exists "speed"; split; [reflexivity|split; [simpl; tauto|assumption]]].
    destruct (dict_get d "weather") eqn:E3; [|exists "weather"; split; [reflexivity|split; [simpl; tauto|assumption]]].
    destruct (dict_get d "crowd") eqn:E4; [|exists "crowd"; split; [reflexivity|split; [simpl; tauto|assumption]]].
    discriminate.
  - intros [Hd|(d & key & Hd & Hk & E)]; eauto.
Qed.

(** Out-of-range and non-numeric values pass through the builder on the
    stand-in toolkit. *)
Lemma feature_vector_builder_witness :
  features_of (VDict [("risk", VFloat 7.5); ("speed", VInt (-3)); ("weather", VStr "rain");
                      ("crowd", VFloat 0.5)]) =
    Ok [[VFloat 7.5; VInt (-3); VStr "rain"; VFloat 0.5]].
Proof.
  exact (proj2 (proj1 (feature_vector_builder
    (VDict [("risk", VFloat 7.5); ("speed", VInt (-3)); ("weather", VStr "rain");
            ("crowd", VFloat 0.5)])) _ _ _ _ eq_refl eq_refl eq_refl eq_refl)).
Defined.

(** C9. Every response of [/predict-safety] carries a score, a color and
    a tip; the (color, tip) pair is one of the three fixed pairs, and it
    is the classification of the score it comes with: of the predicted
    score on the success path (status 200), of 85 on the error path
    (status 500). *)
Theorem response_pair_consistent `{Toolkit}
    (regressor : estimator) (request_json : outcome pyval) :
  exists r score c t,
    App.predict_safety regressor request_json = Ok r /\
    dict_get (body r) "score" = Some score /\
    dict_get (body r) "color" = Some (VStr c) /\
    dict_get (body r) "tip" = Some (VStr t) /\
    ((c = "green" /\ t = "Adventure Ready!") \/
     (c = "yellow" /\ t = "Proceed with Caution") \/
     (c = "red" /\ t = "Reroute Recommended")) /\
    ((exists s, status r = 200 /\ score = VFloat s /\ c = App.color s /\ t = App.tip s) \/
     (status r = 500 /\ score = VInt 85 /\ c = App.color 85 /\ t = App.tip 85)).
Proof.
  unfold App.predict_safety.
  destruct (App.predict_safety_try regressor request_json) as [r|e] eqn:E.
  - unfold App.predict_safety_try in E. unfold_bind.
    destruct request_json as [data|]; [|discriminate].
    destruct (features_of data) as [features|]; [|discriminate].
    destruct (predict regressor features) as [predictions|]; [|discriminate].
    destruct (first predictions) as [s|]; [|discriminate].
    cbn in E. injection E as <-. exists (Response [("score", VFloat s); ("color", VStr (App.color s));
                                          ("tip", VStr (App.tip s))] 200),
      (VFloat s), (App.color s), (App.tip s).
    repeat split; [|left; exists s; auto].
    destruct (classify_cases s) as [(_ & -> & ->)|[(_ & _ & -> & ->)|(_ & _ & -> & ->)]];
      auto.
  - exists (Response [("error", VStr (str e)); ("score", VInt 85); ("color", VStr "green");
                      ("tip", VStr "Adventure Ready!")] 500),
      (VInt 85), "green", "Adventure Ready!".
    repeat split; [left; auto|right; repeat split].
Qed.

(** C10. The two files agree: for every predicted score the (color, tip)
    mapping of app.py is that of safety_score.py, and for every label the
    anomaly mapping is the same; on a regressor read from the model file,
    safety_score.py's [predict_safety] returns the dict app.py serialises
    in its success response, or raises what app.py's [try] raises. *)
Theorem implementations_agree `{Toolkit} :
  (forall score, App.color score = SafetyScore.color score /\
                 App.tip score = SafetyScore.tip score) /\
  (forall anomaly, App.is_anomaly anomaly = SafetyScore.is_anomaly anomaly) /\
  (forall w regressor data features,
     load regressor_path w = Ok regressor -> features_of data = Ok features ->
     match App.predict_safety_try regressor (Ok data) with
     | Ok r => exists d, SafetyScore.predict_safety features w = Ok d /\
                         jsonify d = Ok (body r)
     | Raise e => SafetyScore.predict_safety features w = Raise e
     end).
Proof.
  repeat split.
  intros w regressor data features Hw Hf.
  unfold App.predict_safety_try, SafetyScore.predict_safety. unfold_bind.
  rewrite Hw, Hf. destruct (predict regressor features) as [p|]; [|reflexivity].
  destruct (first p); [|reflexivity]. cbn. eauto.
Qed.

(** ** Module initialisation *)

Lemma rows_length (a b c d : list float) n :
  length a = n -> length b = n -> length c = n -> length d = n ->
  length (rows a b c d) = n.
Proof.
  revert b c d n. induction a as [|x a IH]; intros [|y b] [|z c] [|t d] [|n];
    simpl; try discriminate; try reflexivity.
  intros [= Ha] [= Hb] [= Hc] [= Hd]. f_equal. apply IH; assumption.
Qed.

Lemma rows_In (a b c d : list float) row :
  In row (rows a b c d) ->
  exists r s w k, row = [r; s; w; k] /\ In r a /\ In s b /\ In w c /\ In k d.
Proof.
  revert b c d. induction a as [|x a IH]; intros [|y b] [|z c] [|t d];
    simpl; try contradiction.
  intros [<-|Hin].
  - exists x, y, z, t. auto 10.
  - destruct (IH _ _ _ Hin) as (r & s & w & k & -> & ? & ? & ? & ?).
    exists r, s, w, k. auto 10.
Qed.

Section Init.
Context `{Toolkit}.

Lemma load_models_absent (w : world) :
  fs w !! regressor_path = None \/
  ((exists m, fs w !! regressor_path = Some (Pickle m)) /\
   fs w !! detector_path = None) ->
  fs w !! "models" = None \/ fs w !! "models" = Some Dir ->
  exists e, App.load_models w = Raise e /\ exc_kind e = FileNotFoundError.
Proof.
  unfold App.load_models, load. unfold_bind.
  change (dirname regressor_path) with "models".
  change (dirname detector_path) with "models".
  intros [->|[[m ->] ->]] [->| ->]; eexists; split; reflexivity.
Qed.

(** Saving the two models in a world whose "models" is absent or a
    directory, and whose model paths do not name directories. *)
Lemma save_models (w : world) (regressor anomaly_detector : estimator) :
  fs w !! "models" = None \/ fs w !! "models" = Some Dir ->
  fs w !! regressor_path <> Some Dir ->
  fs w !! detector_path <> Some Dir ->
  exists w',
    (w1 ← makedirs "models" w;
     w2 ← dump regressor regressor_path w1;
     dump anomaly_detector detector_path w2) = Ok w' /\
    rng_state w' = rng_state w /\
    fs w' = <[detector_path := Pickle anomaly_detector]>
              (<[regressor_path := Pickle regressor]> (<["models" := Dir]> (fs w))).
Proof.
  intros Hdir Hr Hd.
  assert (E1 : exists w1, makedirs "models" w = Ok w1 /\ rng_state w1 = rng_state w /\
                 fs w1 = <["models" := Dir]> (fs w)).
  { unfold makedirs. destruct Hdir as [E|E]; rewrite E.
    - eexists. repeat split.
    - exists w. repeat split. symmetry. apply insert_id. exact E. }
  destruct E1 as (w1 & -> & Hg1 & Hf1). unfold_bind.
  assert (E2 : dump regressor regressor_path w1 =
               Ok (World (<[regressor_path := Pickle regressor]> (fs w1)) (rng_state w1))).
  { unfold dump. change (dirname regressor_path) with "models".
    rewrite Hf1, lookup_insert_eq, lookup_insert_ne by discriminate.
    destruct (fs w !! regressor_path) as [[| |]|]; try reflexivity. congruence. }
  rewrite E2.
  assert (E3 : dump anomaly_detector detector_path
                 (World (<[regressor_path := Pickle regressor]> (fs w1)) (rng_state w1)) =
               Ok (World (<[detector_path := Pickle anomaly_detector]>
                            (<[regressor_path := Pickle regressor]> (fs w1)))
                         (rng_state w1))).
  { unfold dump. change (dirname detector_path) with "models". cbn [fs rng_state].
    rewrite Hf1. rewrite (lookup_insert_ne _ regressor_path "models") by discriminate.
    rewrite lookup_insert_eq.
    rewrite (lookup_insert_ne _ regressor_path detector_path) by discriminate.
    rewrite (lookup_insert_ne _ "models" detector_path) by discriminate.
    destruct (fs w !! detector_path) as [[| |]|]; try reflexivity. congruence. }
  rewrite E3. eexists. split; [reflexivity|]. cbn [fs rng_state].
  rewrite Hf1. split; [exact Hg1|reflexivity].
Qed.

End Init.




(** The stand-in toolkit keeps the libraries' promises. *)
Lemma Stub_contract : @toolkit_contract Stub.toolkit.
Proof.
  constructor; cbn.
  - intros n g. apply repeat_length.
  - intros n g x Hx. apply repeat_spec in Hx. subst x. split; reflexivity.
  - intros low high n g. apply repeat_length.
  - intros low high n g z Hlt Hz. apply repeat_spec in Hz. subst z. lia.
  - intros X y g HX Hy. rewrite HX. change (Stub.n_test 100) with 20%nat.
    rewrite !length_skipn, HX, Hy. repeat split; try reflexivity.
    + intros x Hx. rewrite <- (firstn_skipn 20 X). apply in_or_app. right. exact Hx.
    + intros x Hx. rewrite <- (firstn_skipn 20 y). apply in_or_app. right. exact Hx.
Qed.


(** C6. A failure of startup persistence other than the absence of a
    model file is fatal. An exception of [joblib.load] that is not
    [FileNotFoundError] leaves module initialisation as it is, without
    any training: an unreadable or corrupt model file, or a "models" that
    is a file and not a directory ([NotADirectoryError]). So does an
    exception raised while the models are saved, as when the detector
    path names a directory. After either, no request is served. *)
Theorem persistence_failure_is_fatal `{Toolkit} (w : world) (e : exn)
    (Hkind : exc_kind e <> FileNotFoundError) :
  (App.load_models w = Raise e -> App.module_init w = Raise e) /\
  (fs w !! regressor_path = Some (Unreadable e) ->
     App.load_models w = Raise e /\ App.module_init w = Raise e) /\
  (forall m, fs w !! regressor_path = Some (Pickle m) ->
     fs w !! detector_path = Some (Unreadable e) ->
     App.load_models w = Raise e /\ App.module_init w = Raise e) /\
  (fs w !! regressor_path = None ->
     (exists x, fs w !! "models" = Some x /\ x <> Dir) ->
     App.load_models w = Raise (not_a_directory regressor_path) /\
     App.module_init w = Raise (not_a_directory regressor_path)) /\
  (forall e0 e', App.load_models w = Raise e0 -> exc_kind e0 = FileNotFoundError ->
     App.train_models w = Raise e' -> App.module_init w = Raise e') /\
  (fs w !! regressor_path = None ->
     fs w !! "models" = None \/ fs w !! "models" = Some Dir ->
     fs w !! detector_path = Some Dir ->
     exists e', exc_kind e' = IsADirectoryError /\
       App.train_models w = Raise e' /\ App.module_init w = Raise e') /\
  (forall e', App.module_init w = Raise e' ->
     forall requests, App.serve w requests = Raise e').
Proof.
  assert (Hread : forall e1, exc_kind e1 <> FileNotFoundError ->
            App.load_models w = Raise e1 -> App.module_init w = Raise e1).
  { intros e1 K E. unfold App.module_init. rewrite E.
    destruct (exc_kind e1); try reflexivity. congruence. }
  split; [exact (Hread e Hkind)|]. split; [|split; [|split; [|split; [|split]]]].
  - intros E.
    assert (L : App.load_models w = Raise e).
    { unfold App.load_models, load. unfold_bind. rewrite E. reflexivity. }
    split; [exact L|exact (Hread e Hkind L)].
  - intros m E1 E2.
    assert (L : App.load_models w = Raise e).
    { unfold App.load_models, load. unfold_bind. rewrite E1, E2. reflexivity. }
    split; [exact L|exact (Hread e Hkind L)].
  - intros E (x & Ex & Hx).
    assert (L : App.load_models w = Raise (not_a_directory regressor_path)).
    { unfold App.load_models, load. unfold_bind. rewrite E.
      change (dirname regressor_path) with "models". rewrite Ex.
      destruct x; [congruence|reflexivity|reflexivity]. }
    split; [exact L|]. apply Hread; [discriminate|exact L].
  - intros e0 e' E K T. unfold App.module_init. rewrite E, K. exact T.
  - intros Er Em Ed.
    assert (L : App.load_models w = Raise (no_such_file regressor_path)).
    { unfold App.load_models, load. unfold_bind. rewrite Er.
      change (dirname regressor_path) with "models".
      destruct Em as [-> | ->]; reflexivity. }
    assert (T : App.train_models w =
                Raise (Exc IsADirectoryError
                         ("[Errno 21] Is a directory: '" ++ detector_path ++ "'"))).
    { unfold App.train_models.
      destruct (simulated_data (rng_state w)) as [data g].
      destruct (train_test_split (X_of data) (y_of data) 0.2 g) as [[[[Xt ?] yt] ?] g2].
      destruct (RandomForestRegressor_fit Xt yt g2) as [regressor g3].
      destruct (IsolationForest_fit Xt g3) as [anomaly_detector g4].
      assert (M : exists w1, makedirs "models" (World (fs w) g4) = Ok w1 /\
                    fs w1 = <["models" := Dir]> (fs w)).
      { unfold makedirs. cbn [fs rng_state]. destruct Em as [E|E]; rewrite E.
        - eexists. split; reflexivity.
        - eexists. split; [reflexivity|]. cbn [fs]. symmetry. apply insert_id. exact E. }
      destruct M as (w1 & -> & F1). unfold_bind.
      assert (E2 : dump regressor regressor_path w1 =
                   Ok (World (<[regressor_path := Pickle regressor]> (fs w1))
                             (rng_state w1))).
      { unfold dump. change (dirname regressor_path) with "models".
        rewrite F1, lookup_insert_eq, lookup_insert_ne, Er by discriminate. reflexivity. }
      rewrite E2. unfold dump. change (dirname detector_path) with "models".
      cbn [fs rng_state]. rewrite F1.
      rewrite (lookup_insert_ne _ regressor_path "models") by discriminate.
      rewrite lookup_insert_eq.
      rewrite (lookup_insert_ne _ regressor_path detector_path) by discriminate.
      rewrite (lookup_insert_ne _ "models" detector_path) by discriminate.
      rewrite Ed. reflexivity. }
    eexists. split; [|split; [exact T|]]; [reflexivity|].
    unfold App.module_init. rewrite L. exact T.
  - intros e' E requests. unfold App.serve. unfold_bind. rewrite E. reflexivity.
Qed.

(** A machine whose regressor file is truncated does not start. *)
Lemma persistence_failure_is_fatal_witness :
  exc_kind Stub.truncated <> FileNotFoundError /\
  App.module_init Stub.damaged = Raise Stub.truncated /\
  App.serve Stub.damaged [(App.predict_safety_route, Ok (Stub.full_body 0.5))] =
    Raise Stub.truncated.
Proof.
  assert (K : exc_kind Stub.truncated <> FileNotFoundError) by discriminate.
  pose proof (persistence_failure_is_fatal Stub.damaged Stub.truncated K)
    as (_ & Hfile & _ & _ & _ & _ & Hserve).
  split; [exact K|]. split; [exact (proj2 (Hfile eq_refl))|].
  exact (Hserve _ (proj2 (Hfile eq_refl)) _).
Defined.

(** * Further properties of the two files *)

(** ** The classification is monotone *)

(** A key on which the order of binary64 numbers is lexicographic: the
    class (infinities, signed finite numbers, zeros), then the exponent,
    then the mantissa. *)
Definition sf_key (x : spec_float) : Z * Z * Z :=
  match x with
  | S754_zero _ => (0, 0, 0)
  | S754_infinity false => (2, 0, 0)
  | S754_infinity true => (-2, 0, 0)
  | S754_nan => (0, 0, 0)
  | S754_finite false m e => (1, e, Zpos m)
  | S754_finite true m e => (-1, - e, Zneg m)
  end.

Definition key_le (k1 k2 : Z * Z * Z) : Prop :=
  let '(a1, b1, c1) := k1 in
  let '(a2, b2, c2) := k2 in
  a1 < a2 \/ (a1 = a2 /\ (b1 < b2 \/ (b1 = b2 /\ c1 <= c2))).

Lemma SFleb_key x y :
  SFleb x y = true <-> x <> S754_nan /\ y <> S754_nan /\ key_le (sf_key x) (sf_key y).
Proof.
  unfold SFleb, key_le.
  destruct x as [sx|sx| |sx mx ex], y as [sy|sy| |sy my ey];
    cbn [SFcompare sf_key];
    try (split; [discriminate|intros (? & ? & ?); congruence]);
    try (destruct sx); try (destruct sy);
    try fold (Pos.compare mx my);
    try (destruct (Z.compare_spec ex ey), (Pos.compare_spec mx my)); cbn;
    (split; [intros E; try discriminate E; repeat split; try discriminate; lia
            |intros (_ & _ & ?); try reflexivity; lia]).
Qed.

Lemma ge_trans a b c : ge a b = true -> ge b c = true -> ge a c = true.
Proof.
  unfold ge. rewrite !leb_spec, !SFleb_key. intros (Hb & Ha & H1) (Hc & _ & H2).
  repeat split; try assumption.
  destruct (sf_key (Prim2SF a)) as [[a1 a2] a3], (sf_key (Prim2SF b)) as [[b1 b2] b3],
    (sf_key (Prim2SF c)) as [[c1 c2] c3].
  unfold key_le in *. lia.
Qed.

(** X1. A higher score never gets a worse classification: when
    [s2 >= s1], green for [s1] gives green for [s2] and red for [s2] gives
    red for [s1], for the color and for the tip, in app.py and in
    safety_score.py. *)
Theorem classification_monotone (s1 s2 : float) (Hle : ge s2 s1 = true) :
  (App.color s1 = "green" -> App.color s2 = "green") /\
  (App.color s2 = "red" -> App.color s1 = "red") /\
  (App.tip s1 = "Adventure Ready!" -> App.tip s2 = "Adventure Ready!") /\
  (App.tip s2 = "Reroute Recommended" -> App.tip s1 = "Reroute Recommended") /\
  (SafetyScore.color s1 = "green" -> SafetyScore.color s2 = "green") /\
  (SafetyScore.color s2 = "red" -> SafetyScore.color s1 = "red") /\
  (SafetyScore.tip s1 = "Adventure Ready!" -> SafetyScore.tip s2 = "Adventure Ready!") /\
  (SafetyScore.tip s2 = "Reroute Recommended" ->
     SafetyScore.tip s1 = "Reroute Recommended").
Proof.
  assert (Up : forall k, ge s1 k = true -> ge s2 k = true).
  { intros k G. exact (ge_trans _ _ _ Hle G). }
  assert (G : (App.color s1 = "green" -> App.color s2 = "green") /\
              (App.color s2 = "red" -> App.color s1 = "red") /\
              (App.tip s1 = "Adventure Ready!" -> App.tip s2 = "Adventure Ready!") /\
              (App.tip s2 = "Reroute Recommended" -> App.tip s1 = "Reroute Recommended")).
  { unfold App.color, App.tip.
    destruct (ge s1 80) eqn:A1; [rewrite (Up _ A1); repeat split; intros; congruence|].
    destruct (ge s1 50) eqn:B1.
    - rewrite (Up _ B1). destruct (ge s2 80); repeat split; intros; congruence.
    - destruct (ge s2 80), (ge s2 50); repeat split; intros; congruence. }
  destruct G as (G1 & G2 & G3 & G4). repeat split; assumption.
Qed.

Lemma classification_monotone_witness :
  ge 80 79.999 = true /\ App.color 79.999 = "yellow" /\ App.color 80 = "green" /\
  (App.color 80 = "red" -> App.color 79.999 = "red").
Proof.
  split; [reflexivity|]. split; [reflexivity|]. split; [reflexivity|].
  exact (proj1 (proj2 (classification_monotone 79.999 80 eq_refl))).
Defined.

(** ** The handlers, case by case *)

Lemma bind_ok {A B} (m : outcome A) (f : A -> outcome B) (b : B) :
  (x ← m; f x) = Ok b -> exists a, m = Ok a /\ f a = Ok b.
Proof. unfold_bind. destruct m as [a|]; [eauto|discriminate]. Qed.

(** X2. [/predict-safety] answers 200 exactly when the body was parsed,
    the vector was built and the regressor returned at least one
    prediction; the body is then [{score, color, tip}] for the first
    prediction, the others being ignored. In every other case it answers
    500 with the error of the stage that failed. *)
Theorem predict_safety_outcome `{Toolkit}
    (regressor : estimator) (request_json : outcome pyval) :
  (exists data features score others,
     request_json = Ok data /\ features_of data = Ok features /\
     predict regressor features = Ok (score :: others) /\
     App.predict_safety regressor request_json =
       Ok (Response [("score", VFloat score); ("color", VStr (App.color score));
                     ("tip", VStr (App.tip score))] 200)) \/
  (exists e,
     App.predict_safety_try regressor request_json = Raise e /\
     (request_json = Raise e \/
      (exists data, request_json = Ok data /\ features_of data = Raise e) \/
      (exists data features, request_json = Ok data /\ features_of data = Ok features /\
         predict regressor features = Raise e) \/
      (exists data features, request_json = Ok data /\ features_of data = Ok features /\
         predict regressor features = Ok [] /\ exc_kind e = IndexError)) /\
     App.predict_safety regressor request_json =
       Ok (Response [("error", VStr (str e)); ("score", VInt 85);
                     ("color", VStr "green"); ("tip", VStr "Adventure Ready!")] 500)).
Proof.
  unfold App.predict_safety, App.predict_safety_try. unfold_bind.
  destruct request_json as [data|e]; [|right; exists e; auto].
  destruct (features_of data) as [features|e] eqn:Ef; [|right; exists e; eauto 10].
  destruct (predict regressor features) as [[|score others]|e] eqn:Ep.
  - right. eexists. split; [reflexivity|]. split; [|reflexivity].
    right. right. right. exists data, features. auto.
  - left. exists data, features, score, others. auto.
  - right. exists e. split; [reflexivity|]. split; [|reflexivity].
    right. right. left. eauto.
Qed.

(** The keys of the feature vector, in the order they are read. *)
Definition feature_keys : list string := ["risk"; "speed"; "weather"; "crowd"].

Lemma feature_row_first_missing d before key after :
  feature_keys = (before ++ key :: after)%list ->
  (forall k, In k before -> dict_get d k <> None) ->
  dict_get d key = None ->
  feature_row (VDict d) = Raise (Exc KeyError ("'" ++ key ++ "'")).
Proof.
  unfold feature_keys, feature_row. unfold_bind. intros Hk Hbefore Hmiss. cbn [getitem].
  destruct before as [|k1 [|k2 [|k3 [|k4 [|]]]]]; cbn in Hk; inversion Hk; subst.
  - rewrite Hmiss. reflexivity.
  - destruct (dict_get d "risk") eqn:E1; [|destruct (Hbefore "risk"); simpl; auto].
    rewrite Hmiss. reflexivity.
  - destruct (dict_get d "risk") eqn:E1; [|destruct (Hbefore "risk"); simpl; auto].
    destruct (dict_get d "speed") eqn:E2; [|destruct (Hbefore "speed"); simpl; auto].
    rewrite Hmiss. reflexivity.
  - destruct (dict_get d "risk") eqn:E1; [|destruct (Hbefore "risk"); simpl; auto].
    destruct (dict_get d "speed") eqn:E2; [|destruct (Hbefore "speed"); simpl; auto].
    destruct (dict_get d "weather") eqn:E3; [|destruct (Hbefore "weather"); simpl; auto].
    rewrite Hmiss. reflexivity.
Qed.

(** X3. When several of the four keys are absent from a JSON object, the
    error field of [/predict-safety] names the first absent one in the
    order risk, speed, weather, crowd, and only that one. *)
Theorem first_missing_key_reported `{Toolkit}
    (regressor : estimator) (d : list (string * pyval))
    (before : list string) (key : string) (after : list string)
    (Hkeys : feature_keys = (before ++ key :: after)%list)
    (Hbefore : forall k, In k before -> dict_get d k <> None)
    (Hmissing : dict_get d key = None) :
  App.predict_safety regressor (Ok (VDict d)) =
    Ok (Response [("error", VStr ("'" ++ key ++ "'")); ("score", VInt 85);
                  ("color", VStr "green"); ("tip", VStr "Adventure Ready!")] 500).
Proof.
  unfold App.predict_safety, App.predict_safety_try, features_of. unfold_bind.
  rewrite (feature_row_first_missing d before key after Hkeys Hbefore Hmissing).
  reflexivity.
Qed.

(** A body with neither "speed" nor "crowd" is told about "speed". *)
Lemma first_missing_key_reported_witness :
  App.predict_safety (Stub.Forest [] [])
    (Ok (VDict [("weather", VFloat 0.5); ("risk", VFloat 0.2)])) =
  Ok (Response [("error", VStr "'speed'"); ("score", VInt 85);
                ("color", VStr "green"); ("tip", VStr "Adventure Ready!")] 500).
Proof.
  refine (first_missing_key_reported (Stub.Forest [] [])
            [("weather", VFloat 0.5); ("risk", VFloat 0.2)]
            ["risk"] "speed" ["weather"; "crowd"] eq_refl _ eq_refl).
  intros k [<-|[]]. discriminate.
Defined.

(** X4. What [/detect-anomaly] answers is decided by the body's "risk"
    alone: when [data['risk'] > 0.8] evaluates to [b] the answer is status
    500 with [anomaly: b], and when it raises that exception leaves the
    handler. The detector only contributes the text of the error field:
    two detectors give the same status and the same anomaly value. *)
Theorem detect_anomaly_decided_by_risk `{Toolkit}
    (anomaly_detector : estimator) (request_json : outcome pyval) :
  (exists e,
     App.detect_anomaly_try anomaly_detector request_json = Raise e /\
     match App.risk_fallback request_json with
     | Ok b => App.detect_anomaly anomaly_detector request_json =
                 Ok (Response [("error", VStr (str e)); ("anomaly", VBool b)] 500)
     | Raise e' => App.detect_anomaly anomaly_detector request_json = Raise e'
     end) /\
  (forall other r1 r2,
     App.detect_anomaly anomaly_detector request_json = Ok r1 ->
     App.detect_anomaly other request_json = Ok r2 ->
     status r1 = status r2 /\
     dict_get (body r1) "anomaly" = dict_get (body r2) "anomaly") /\
  (forall other e',
     App.detect_anomaly anomaly_detector request_json = Raise e' ->
     App.detect_anomaly other request_json = Raise e').
Proof.
  assert (Shape : forall det, exists e,
    App.detect_anomaly_try det request_json = Raise e /\
    match App.risk_fallback request_json with
    | Ok b => App.detect_anomaly det request_json =
                Ok (Response [("error", VStr (str e)); ("anomaly", VBool b)] 500)
    | Raise e' => App.detect_anomaly det request_json = Raise e'
    end).
  { intros det. destruct (detect_anomaly_try_raises det request_json) as [e He].
    exists e. split; [exact He|]. unfold App.detect_anomaly. rewrite He. unfold_bind.
    destruct (App.risk_fallback request_json); reflexivity. }
  split; [apply Shape|]. split.
  - intros other r1 r2 H1 H2.
    destruct (Shape anomaly_detector) as (e1 & _ & S1).
    destruct (Shape other) as (e2 & _ & S2).
    destruct (App.risk_fallback request_json) as [b|]; [|congruence].
    rewrite S1 in H1. rewrite S2 in H2. injection H1 as <-. injection H2 as <-.
    split; reflexivity.
  - intros other e' H1.
    destruct (Shape anomaly_detector) as (e1 & _ & S1).
    destruct (Shape other) as (e2 & _ & S2).
    destruct (App.risk_fallback request_json) as [b|]; congruence.
Qed.

(** ** Start-up, once more *)

Lemma makedirs_ok `{Toolkit} (path : string) (w w1 : world) :
  makedirs path w = Ok w1 ->
  fs w1 = <[path := Dir]> (fs w) /\ rng_state w1 = rng_state w.
Proof.
  unfold makedirs. destruct (fs w !! path) as [[| |]|] eqn:E; try discriminate.
  - intros [= <-]. split; [|reflexivity]. symmetry. apply insert_id. exact E.
  - intros [= <-]. split; reflexivity.
Qed.

Lemma dump_ok `{Toolkit} (m : estimator) (path : string) (w w2 : world) :
  dump m path w = Ok w2 ->
  fs w2 = <[path := Pickle m]> (fs w) /\ rng_state w2 = rng_state w.
Proof.
  unfold dump. destruct (fs w !! dirname path) as [[| |]|]; try discriminate.
  destruct (fs w !! path) as [[| |]|]; try discriminate; intros [= <-]; split; reflexivity.
Qed.

(** After a successful training the two files hold the two models that
    were fitted, under a "models" directory; the training itself only
    depends on the random state. *)
Lemma train_models_saved `{Toolkit} (w w' : world) (ms : estimator * estimator) :
  App.train_models w = Ok (w', ms) ->
  fs w' = <[detector_path := Pickle (snd ms)]>
            (<[regressor_path := Pickle (fst ms)]> (<["models" := Dir]> (fs w))) /\
  forall w2 w2' ms2, rng_state w2 = rng_state w ->
    App.train_models w2 = Ok (w2', ms2) -> ms2 = ms /\ rng_state w2' = rng_state w'.
Proof.
  unfold App.train_models. intros Ht. split.
  - destruct (simulated_data (rng_state w)) as [data g].
    destruct (train_test_split (X_of data) (y_of data) 0.2 g) as [[[[Xt ?] yt] ?] g2].
    destruct (RandomForestRegressor_fit Xt yt g2) as [r g3].
    destruct (IsolationForest_fit Xt g3) as [d g4].
    apply bind_ok in Ht as (w1 & H1 & Ht). apply bind_ok in Ht as (w2 & H2 & Ht).
    apply bind_ok in Ht as (w3 & H3 & Ht). injection Ht as <- <-.
    apply makedirs_ok in H1 as [F1 _]. apply dump_ok in H2 as [F2 _].
    apply dump_ok in H3 as [F3 _]. cbn [fs] in F1. cbn [fst snd]. congruence.
  - intros w2 w2' ms2 Hg Ht2. rewrite Hg in Ht2.
    destruct (simulated_data (rng_state w)) as [data g].
    destruct (train_test_split (X_of data) (y_of data) 0.2 g) as [[[[Xt ?] yt] ?] g2].
    destruct (RandomForestRegressor_fit Xt yt g2) as [r g3].
    destruct (IsolationForest_fit Xt g3) as [d g4].
    apply bind_ok in Ht as (a1 & A1 & Ht). apply bind_ok in Ht as (a2 & A2 & Ht).
    apply bind_ok in Ht as (a3 & A3 & Ht). injection Ht as <- <-.
    apply bind_ok in Ht2 as (b1 & B1 & Ht2). apply bind_ok in Ht2 as (b2 & B2 & Ht2).
    apply bind_ok in Ht2 as (b3 & B3 & Ht2). injection Ht2 as <- <-.
    apply makedirs_ok in A1 as [_ A1]. apply dump_ok in A2 as [_ A2].
    apply dump_ok in A3 as [_ A3]. apply makedirs_ok in B1 as [_ B1].
    apply dump_ok in B2 as [_ B2]. apply dump_ok in B3 as [_ B3].
    cbn [rng_state] in A1, B1. split; [reflexivity|congruence].
Qed.

Lemma load_models_saved `{Toolkit} (w : world) (files : gmap string entry)
    (ms : estimator * estimator) :
  fs w = <[detector_path := Pickle (snd ms)]> (<[regressor_path := Pickle (fst ms)]> files) ->
  App.load_models w = Ok ms.
Proof.
  intros E. unfold App.load_models, load. unfold_bind. rewrite E.
  rewrite (lookup_insert_ne _ detector_path regressor_path) by discriminate.
  rewrite !lookup_insert_eq. destruct ms; reflexivity.
Qed.

(** The machine a fresh one becomes by starting the service once, and
    the models it then holds, on the stand-in toolkit. *)
Definition trained_models : Stub.model * Stub.model :=
  (Stub.Forest (repeat [0.5; 0.5; 0.5; 0.5]%float 80) (repeat 0 80),
   Stub.Isolation (repeat [0.5; 0.5; 0.5; 0.5]%float 80)).

Definition trained_world : @world Stub.toolkit :=
  @World Stub.toolkit
    (<[detector_path := @Pickle Stub.toolkit (snd trained_models)]>
       (<[regressor_path := @Pickle Stub.toolkit (fst trained_models)]>
          (<["models" := Dir]> ∅))) 8%nat.

Lemma fresh_start : App.module_init Stub.fresh = Ok (trained_world, trained_models).
Proof. vm_compute. reflexivity. Qed.

(** X5. After any successful start-up of the service the models in
    memory are the ones the two files hold: loading them again gives the
    same pair, a second start-up changes nothing and answers every
    request as the first does, and no path other than "models" and the
    two model files has been touched. *)
Theorem startup_memory_matches_disk `{Toolkit}
    (w w' : world) (ms : estimator * estimator)
    (Hinit : App.module_init w = Ok (w', ms)) :
  App.load_models w' = Ok ms /\
  App.module_init w' = Ok (w', ms) /\
  (forall path, path <> "models" -> path <> regressor_path -> path <> detector_path ->
     fs w' !! path = fs w !! path) /\
  (forall requests, App.serve w' requests = App.serve w requests).
Proof.
  assert (Hload : App.load_models w' = Ok ms /\
            forall path, path <> "models" -> path <> regressor_path ->
              path <> detector_path -> fs w' !! path = fs w !! path).
  { unfold App.module_init in Hinit.
    destruct (App.load_models w) as [models|e] eqn:El.
    - injection Hinit as <- <-. auto.
    - destruct (exc_kind e); try discriminate.
      apply train_models_saved in Hinit as [Hfs _]. split.
      + eapply load_models_saved. exact Hfs.
      + intros path P1 P2 P3. rewrite Hfs, !lookup_insert_ne by congruence. reflexivity. }
  destruct Hload as [Hload Hother].
  assert (Hagain : App.module_init w' = Ok (w', ms)).
  { unfold App.module_init. rewrite Hload. reflexivity. }
  repeat split; try assumption.
  intros requests. unfold App.serve. unfold_bind. rewrite Hinit, Hagain.
  destruct ms. reflexivity.
Qed.

(** Starting the service on the machine a first start-up left loads the
    same models again. *)
Lemma startup_memory_matches_disk_witness :
  App.module_init Stub.fresh = Ok (trained_world, trained_models) /\
  App.module_init trained_world = Ok (trained_world, trained_models).
Proof.
  split; [exact fresh_start|].
  exact (proj1 (proj2 (startup_memory_matches_disk Stub.fresh trained_world
                         trained_models fresh_start))).
Defined.

(** X6. When both model files hold a model, the service starts with
    exactly these two, trains nothing and leaves the files and the random
    state as they were, whatever else the machine holds. *)
Theorem stored_models_are_kept `{Toolkit}
    (w : world) (regressor anomaly_detector : estimator)
    (Hreg : fs w !! regressor_path = Some (Pickle regressor))
    (Hdet : fs w !! detector_path = Some (Pickle anomaly_detector)) :
  App.module_init w = Ok (w, (regressor, anomaly_detector)) /\
  (forall requests,
     App.serve w requests = Ok (map (App.handle regressor anomaly_detector) requests)).
Proof.
  assert (E : App.module_init w = Ok (w, (regressor, anomaly_detector))).
  { unfold App.module_init, App.load_models, load. unfold_bind.
    rewrite Hreg, Hdet. reflexivity. }
  split; [exact E|]. intros requests. unfold App.serve. unfold_bind. rewrite E. reflexivity.
Qed.

Lemma stored_models_are_kept_witness :
  fs trained_world !! regressor_path = Some (Pickle (fst trained_models)) /\
  App.module_init trained_world = Ok (trained_world, trained_models).
Proof.
  split; [vm_compute; reflexivity|].
  refine (proj1 (stored_models_are_kept trained_world (fst trained_models)
                   (snd trained_models) _ _)); vm_compute; reflexivity.
Defined.

(** X7. The script and the service compose: on the machine the script
    leaves after a successful run, the service starts with the script's
    two models without training, and the script's own [predict_safety]
    and [detect_anomaly] read these same models back from the files. *)
Theorem script_then_service `{Toolkit}
    (w w' : world) (ms : estimator * estimator)
    (Hscript : SafetyScore.module_init w = Ok (w', ms)) :
  App.module_init w' = Ok (w', ms) /\
  load regressor_path w' = Ok (fst ms) /\
  load detector_path w' = Ok (snd ms) /\
  (forall features score others,
     predict (fst ms) features = Ok (score :: others) ->
     SafetyScore.predict_safety features w' =
       Ok [("score", Builtin (VFloat score)); ("color", Builtin (VStr (SafetyScore.color score)));
           ("tip", Builtin (VStr (SafetyScore.tip score)))]) /\
  (forall features anomaly others,
     predict_labels (snd ms) features = Ok (anomaly :: others) ->
     SafetyScore.detect_anomaly features w' =
       Ok [("anomaly", NumpyBool (SafetyScore.is_anomaly anomaly))]).
Proof.
  change (App.train_models w = Ok (w', ms)) in Hscript.
  apply train_models_saved in Hscript as [Hfs _].
  assert (Lr : load regressor_path w' = Ok (fst ms)).
  { unfold load. rewrite Hfs, lookup_insert_ne, lookup_insert_eq by discriminate.
    reflexivity. }
  assert (Ld : load detector_path w' = Ok (snd ms)).
  { unfold load. rewrite Hfs, lookup_insert_eq. reflexivity. }
  split; [|split; [exact Lr|split; [exact Ld|split]]].
  - unfold App.module_init. rewrite (load_models_saved _ _ _ Hfs). reflexivity.
  - intros features score others Hp. unfold SafetyScore.predict_safety. unfold_bind.
    rewrite Lr, Hp. reflexivity.
  - intros features anomaly others Hp. unfold SafetyScore.detect_anomaly. unfold_bind.
    rewrite Ld, Hp. reflexivity.
Qed.

Lemma fresh_script : SafetyScore.module_init Stub.fresh = Ok (trained_world, trained_models).
Proof. vm_compute. reflexivity. Qed.

Lemma script_then_service_witness :
  SafetyScore.module_init Stub.fresh = Ok (trained_world, trained_models) /\
  App.module_init trained_world = Ok (trained_world, trained_models).
Proof.
  split; [exact fresh_script|].
  exact (proj1 (script_then_service Stub.fresh trained_world trained_models fresh_script)).
Defined.

(** X8. The script never reads the model files: the models it fits and
    returns depend on the random state only, so two machines with the same
    random state get the same models whatever their files hold, and a
    model file that was there is overwritten by the new model. *)
Theorem script_ignores_stored_models `{Toolkit}
    (w1 w2 w1' w2' : world) (ms1 ms2 : estimator * estimator)
    (Hrng : rng_state w2 = rng_state w1)
    (H1 : SafetyScore.module_init w1 = Ok (w1', ms1))
    (H2 : SafetyScore.module_init w2 = Ok (w2', ms2)) :
  ms2 = ms1 /\
  rng_state w2' = rng_state w1' /\
  fs w1' !! regressor_path = Some (Pickle (fst ms1)) /\
  fs w1' !! detector_path = Some (Pickle (snd ms1)) /\
  fs w2' !! regressor_path = Some (Pickle (fst ms1)) /\
  fs w2' !! detector_path = Some (Pickle (snd ms1)).
Proof.
  change (App.train_models w1 = Ok (w1', ms1)) in H1.
  change (App.train_models w2 = Ok (w2', ms2)) in H2.
  destruct (train_models_saved _ _ _ H1) as [F1 Hsame].
  destruct (Hsame _ _ _ Hrng H2) as [-> Hg].
  destruct (train_models_saved _ _ _ H2) as [F2 _].
  split; [reflexivity|]. split; [exact Hg|].
  rewrite F1, F2.
  rewrite !(lookup_insert_ne _ detector_path regressor_path) by discriminate.
  rewrite !lookup_insert_eq. auto.
Qed.

(** The machine the script leaves when it runs from the random state 8,
    on the stand-in toolkit. *)
Definition retrained_world : @world Stub.toolkit :=
  @World Stub.toolkit (fs trained_world) 16%nat.

Lemma script_on_trained :
  SafetyScore.module_init trained_world = Ok (retrained_world, trained_models).
Proof. vm_compute. reflexivity. Qed.

Lemma script_on_empty :
  SafetyScore.module_init (@World Stub.toolkit ∅ 8%nat) = Ok (retrained_world, trained_models).
Proof. vm_compute. reflexivity. Qed.

(** The script run on the machine the service trained and on an empty
    machine with the same random state: the same models, written to the
    files in both cases. *)
Lemma script_ignores_stored_models_witness :
  SafetyScore.module_init trained_world = Ok (retrained_world, trained_models) /\
  SafetyScore.module_init (@World Stub.toolkit ∅ 8%nat) =
    Ok (retrained_world, trained_models) /\
  fs retrained_world !! regressor_path = Some (Pickle (fst trained_models)).
Proof.
  split; [exact script_on_trained|]. split; [exact script_on_empty|].
  exact (proj1 (proj2 (proj2 (script_ignores_stored_models trained_world
           (@World Stub.toolkit ∅ 8%nat) retrained_world retrained_world
           trained_models trained_models eq_refl script_on_trained script_on_empty)))).
Defined.

